(** * Authentication and data-synchronisation layer (AuthContext.tsx, DataContext.tsx, firebase.ts)

    A shallow embedding of the two React providers.  Component state
    ([useState] cells) is an explicit record; every handler reads the
    state of the render it was created in and returns the next state,
    the external calls it issued (the persistence adapter, the session
    service, the console) and how its promise settled.  A handler runs
    to completion before the next one starts. *)

From Stdlib Require Import ZArith List Bool Lia.
From stdpp Require Import base option list gmap strings pretty.
Import ListNotations.

Local Open Scope Z_scope.

(** ** JavaScript values and array primitives used by the source *)

Module Js.

(** A property of an object whose declared type is an array or an object:
    the key is not there, the key holds [null]/[undefined], or it holds a
    value.  Arrays and objects are always truthy. *)
Inductive prop (A : Type) : Type :=
| Missing
| Nullish
| Present (a : A).
Global Arguments Missing {A}.
Global Arguments Nullish {A}.
Global Arguments Present {A} a.

(** [!o.k] *)
Definition falsy {A} (p : prop A) : bool :=
  match p with Present _ => false | _ => true end.

(** The key [k] of [{ ...base, ...over }]: an own key of [over] wins,
    whatever it holds. *)
Definition spread {A} (base over : prop A) : prop A :=
  match over with Missing => base | _ => over end.

(** Reading [o.k]: a missing key reads as [undefined]. *)
Definition read {A} (p : prop A) : prop A :=
  match p with Missing => Nullish | _ => p end.

(** [arr.slice(0, e)] *)
Definition slice0 {A} (arr : list A) (e : Z) : list A :=
  let len := Z.of_nat (length arr) in
  let final := if e <? 0 then Z.max (len + e) 0 else Z.min e len in
  take (Z.to_nat final) arr.

(** [arr[i]]; [None] is [undefined]. *)
Definition index {A} (arr : list A) (i : Z) : option A :=
  if i <? 0 then None else arr !! Z.to_nat i.

(** [arr.push(x)] and [arr.shift()], as the array left behind. *)
Definition push {A} (arr : list A) (x : A) : list A := arr ++ [x].
Definition shift {A} (arr : list A) : list A := tail arr.

(** [arr.length] *)
Definition len {A} (arr : list A) : Z := Z.of_nat (length arr).

End Js.
Import Js.

(** ** Types imported from [../types], [../constants] and the SDK

    Their declarations are not part of the sources at hand; the element
    types of the collections stay abstract. *)

Class Schema : Type := {
  Subject : Type;
  SchoolClass : Type;
  Room : Type;
  ScheduleItem : Type;
  Substitution : Type;
  BellSchedule : Type;
  SettingValue : Type;
  TeacherInfo : Type;      (* the fields of a teacher other than the two defaulted on load *)
  User : Type;             (* firebase.User *)
  email : User → option string;
  DbError : Type           (* what a rejected dbService.save carries *)
}.

Inductive Shift : Type := First | Second.

Section Model.
Context `{Σ : Schema}.

Record Teacher : Type := mkTeacher {
  shifts : prop (list Shift);
  telegramChatId : prop string;
  teacherInfo : TeacherInfo
}.

(** An AppData object as it exists at run time: any key may be missing. *)
Record AppData : Type := mkAppData {
  subjects : prop (list Subject);
  teachers : prop (list Teacher);
  classes : prop (list SchoolClass);
  rooms : prop (list Room);
  schedule : prop (list ScheduleItem);
  substitutions : prop (list Substitution);
  bellSchedule : prop BellSchedule;
  settings : prop (gmap string SettingValue)
}.

(** [{}] *)
Definition emptyObject : AppData :=
  mkAppData Missing Missing Missing Missing Missing Missing Missing Missing.

(** [{ ...a, ...b }] on AppData objects *)
Definition spreadData (a b : AppData) : AppData :=
  {| subjects := spread (subjects a) (subjects b);
     teachers := spread (teachers a) (teachers b);
     classes := spread (classes a) (classes b);
     rooms := spread (rooms a) (rooms b);
     schedule := spread (schedule a) (schedule b);
     substitutions := spread (substitutions a) (substitutions b);
     bellSchedule := spread (bellSchedule a) (bellSchedule b);
     settings := spread (settings a) (settings b) |}.

(** Spreading [undefined] or [null] contributes no key. *)
Definition spreadable (d : option AppData) : AppData :=
  match d with Some o => o | None => emptyObject end.

Definition ownKeys (p : prop (gmap string SettingValue)) : gmap string SettingValue :=
  match p with Present m => m | _ => ∅ end.

(** ** AuthContext.tsx *)

Inductive Role : Type := admin | teacher | guest.

(** [UserRole]; [None] is [null]. *)
Definition UserRole : Type := option Role.

Definition ADMIN_EMAIL : string := "admin@gymnasium22.com".
Definition TEACHER_EMAIL : string := "teacher@gymnasium22.com".

Record AuthState : Type := mkAuth {
  user : option User;
  role : UserRole;
  loading : bool
}.

Inductive AuthCall : Type :=
| SignOut
| WarnAuthDisabled.

Definition authInitial : AuthState := mkAuth None None true.

(** [currentUser.email === c] *)
Definition emailIs (u : User) (c : string) : bool :=
  match email u with Some e => String.eqb e c | None => false end.

(** The listener handed to [auth.onAuthStateChanged].  [auth] tells whether
    the module-level [auth] binding holds a client ([auth?.signOut()]). *)
Definition authListener (auth : bool) (currentUser : option User) (s : AuthState)
  : AuthState * list AuthCall :=
  match currentUser with
  | Some u =>
      if emailIs u ADMIN_EMAIL then (mkAuth currentUser (Some admin) false, [])
      else if emailIs u TEACHER_EMAIL then (mkAuth currentUser (Some teacher) false, [])
      else (mkAuth currentUser None false, if auth then [SignOut] else [])
  | None => (mkAuth currentUser None false, [])
  end.

(** The mount effect: without a client nothing is registered. *)
Definition authEffect (auth : bool) (s : AuthState)
  : AuthState * list AuthCall * option (option User → AuthState → AuthState * list AuthCall) :=
  if negb auth then (mkAuth (user s) (role s) false, [WarnAuthDisabled], None)
  else (s, [], Some (authListener auth)).

(** [logout]: [setRole(null)] runs only once the awaited sign-out resolved. *)
Definition logout (auth signOutRejects : bool) (s : AuthState) : AuthState * list AuthCall :=
  if auth then
    if signOutRejects then (s, [SignOut])
    else (mkAuth (user s) None (loading s), [SignOut])
  else (mkAuth (user s) None (loading s), []).

Definition setGuestRole (s : AuthState) : AuthState :=
  mkAuth (user s) (Some guest) false.

(** ** DataContext.tsx *)

Variable INITIAL_DATA : AppData.
Variable DEFAULT_BELLS : BellSchedule.

(** The four [useState] cells of [DataProvider].  [data] is [None] when
    it was set to [undefined]. *)
Record DataState : Type := mkState {
  data : option AppData;
  isLoading : bool;
  history : list AppData;
  historyPointer : Z
}.

Definition initialState : DataState := mkState (Some INITIAL_DATA) true [] (-1).

(** What a render of [DataProvider] closes over besides its own state:
    the [initialData] prop and the value of [useAuth()]. *)
Record Env : Type := mkEnv {
  initialData : option AppData;
  auth : AuthState
}.

(** Calls that leave the component. *)
Inductive Call : Type :=
| DbSave (doc : option AppData)      (* dbService.save(doc) *)
| DbSubscribe                        (* dbService.subscribe(onData, onError) *)
| ErrorSaveFailed (e : DbError)      (* console.error("Save failed silently in background", e) *)
| ErrorSubscribeFailed               (* console.error("Failed to subscribe to data:", error) *)
| WarnGuestCannotSave.               (* console.warn(...) of the guest branch *)

(** How the promise of an async handler settles. *)
Inductive Settled : Type :=
| Fulfilled
| Rejected (e : DbError).

Record Run : Type := mkRun {
  next : DataState;
  calls : list Call;
  settled : Settled
}.

(** Truthiness of an object-or-undefined value. *)
Definition truthy {A} (o : option A) : bool :=
  match o with Some _ => true | None => false end.

Definition isGuestRole (r : UserRole) : bool :=
  match r with Some guest => true | _ => false end.

(** [t => ({ shifts: [Shift.First, Shift.Second], telegramChatId: '', ...t })] *)
Definition normalizeTeacher (t : Teacher) : Teacher :=
  {| shifts := spread (Present [First; Second]) (shifts t);
     telegramChatId := spread (Present ""%string) (telegramChatId t);
     teacherInfo := teacherInfo t |}.

(** [if (!o.k) o.k = dflt], on an array- or object-valued key. *)
Definition orDefault {A} (p : prop A) (dflt : A) : A :=
  match p with Present a => a | _ => dflt end.

(** Lines 58-69: the object handed to [setInternalData] by the
    subscription listener. *)
Definition fixData (loaded : AppData) : AppData :=
  let fixedData := spreadData INITIAL_DATA loaded in
  {| subjects := subjects fixedData;
     teachers := Present (map normalizeTeacher (orDefault (teachers fixedData) []));
     classes := classes fixedData;
     rooms := rooms fixedData;
     schedule := Present (orDefault (schedule fixedData) []);
     substitutions := Present (orDefault (substitutions fixedData) []);
     bellSchedule := Present (orDefault (bellSchedule fixedData) DEFAULT_BELLS);
     settings :=
       if falsy (settings fixedData) then read (settings INITIAL_DATA)
       else Present (ownKeys (settings fixedData) ∪ ownKeys (settings INITIAL_DATA)) |}.

(** The [onData] listener of the subscription (lines 57-85). *)
Definition onData (loaded : AppData) (s : DataState) : Run :=
  let fixedData := fixData loaded in
  {| next :=
       {| data := Some fixedData;
          isLoading := false;
          history := (if len (history s) =? 0 then [fixedData] else history s);
          historyPointer := (if historyPointer s =? -1 then 0 else historyPointer s) |};
     calls := [];
     settled := Fulfilled |}.

(** The [onError] listener (lines 86-91). *)
Definition onError (s : DataState) : Run :=
  {| next := mkState (Some INITIAL_DATA) false (history s) (historyPointer s);
     calls := [ErrorSubscribeFailed];
     settled := Fulfilled |}.

(** The body of the effect (lines 29-92). *)
Definition dataEffect (env : Env) (s : DataState) : Run :=
  match initialData env with
  | Some d => mkRun (mkState (Some d) false [d] 0) [] Fulfilled
  | None =>
      if loading (auth env) then mkRun s [] Fulfilled
      else
        let canLoadData := truthy (user (auth env)) || isGuestRole (role (auth env)) in
        if negb canLoadData
        then mkRun (mkState (Some INITIAL_DATA) false (history s) (historyPointer s)) [] Fulfilled
        else mkRun (mkState (data s) true (history s) (historyPointer s)) [DbSubscribe] Fulfilled
  end.

(** [saveData(newData, addToHistory = true)] (lines 101-126).  [reply] is
    how [dbService.save] answers if it is called: [Some e] rejects. *)
Definition saveData (env : Env) (reply : option DbError) (s : DataState)
    (newData : AppData) (addToHistory : option bool) : Run :=
  let addToHistory := default true addToHistory in
  let isGuest := negb (truthy (user (auth env))) && isGuestRole (role (auth env)) in
  let mergedData := spreadData (spreadable (data s)) newData in
  let out :=
    if negb (truthy (initialData env)) && truthy (user (auth env)) && negb isGuest then
      DbSave (Some mergedData) ::
        match reply with Some e => [ErrorSaveFailed e] | None => [] end
    else if isGuest then [WarnGuestCannotSave]
    else [] in
  let '(h, p) :=
    if addToHistory then
      let newHistory := slice0 (history s) (historyPointer s + 1) in
      let newHistory := push newHistory mergedData in
      let newHistory := if 50 <? len newHistory then shift newHistory else newHistory in
      (newHistory, len newHistory - 1)
    else (history s, historyPointer s) in
  {| next := mkState (Some mergedData) (isLoading s) h p;
     calls := out;
     settled := Fulfilled |}.

(** The tail shared by [undo] and [redo]:
    [if (!initialData && user) await dbService.save(doc)], with nothing
    around it to catch a rejection. *)
Definition persistSnapshot (env : Env) (reply : option DbError) (doc : option AppData)
  : list Call * Settled :=
  if negb (truthy (initialData env)) && truthy (user (auth env)) then
    ([DbSave doc], match reply with Some e => Rejected e | None => Fulfilled end)
  else ([], Fulfilled).

(** [undo] (lines 128-135) *)
Definition undo (env : Env) (reply : option DbError) (s : DataState) : Run :=
  if 0 <? historyPointer s then
    let prevData := index (history s) (historyPointer s - 1) in
    let '(out, res) := persistSnapshot env reply prevData in
    {| next := mkState prevData (isLoading s) (history s) (historyPointer s - 1);
       calls := out;
       settled := res |}
  else mkRun s [] Fulfilled.

(** [redo] (lines 137-144) *)
Definition redo (env : Env) (reply : option DbError) (s : DataState) : Run :=
  if historyPointer s <? len (history s) - 1 then
    let nextData := index (history s) (historyPointer s + 1) in
    let '(out, res) := persistSnapshot env reply nextData in
    {| next := mkState nextData (isLoading s) (history s) (historyPointer s + 1);
       calls := out;
       settled := res |}
  else mkRun s [] Fulfilled.

(** [resetData] (line 146) *)
Definition resetData (env : Env) (reply : option DbError) (s : DataState) : Run :=
  saveData env reply s INITIAL_DATA None.

Definition canUndo (s : DataState) : bool := 0 <? historyPointer s.
Definition canRedo (s : DataState) : bool := historyPointer s <? len (history s) - 1.

(** Whether the effect of a render with [env] holds a subscription. *)
Definition subscribed (env : Env) : bool :=
  negb (truthy (initialData env)) && negb (loading (auth env))
  && (truthy (user (auth env)) || isGuestRole (role (auth env))).

(** ** The provider as a transition system *)

Inductive Action : Type :=
| RunEffect (env : Env)
| Deliver (loaded : AppData)
| SubscriptionError
| SaveData (env : Env) (reply : option DbError) (newData : AppData) (addToHistory : option bool)
| Undo (env : Env) (reply : option DbError)
| Redo (env : Env) (reply : option DbError)
| ResetData (env : Env) (reply : option DbError).

Definition perform (a : Action) (s : DataState) : Run :=
  match a with
  | RunEffect env => dataEffect env s
  | Deliver loaded => onData loaded s
  | SubscriptionError => onError s
  | SaveData env reply newData addToHistory => saveData env reply s newData addToHistory
  | Undo env reply => undo env reply s
  | Redo env reply => redo env reply s
  | ResetData env reply => resetData env reply s
  end.

(** States the provider can be in: the initial render followed by any
    number of handler runs. *)
Inductive reachable : DataState → Prop :=
| reachable_initial : reachable initialState
| reachable_perform a s : reachable s → reachable (next (perform a s)).

Definition runAll (acts : list Action) (s : DataState) : DataState :=
  fold_left (λ st a, next (perform a st)) acts s.

(** ** Vocabulary of the properties *)

(** The documents a run handed to [dbService.save], in order. *)
Definition persisted (r : Run) : list (option AppData) :=
  omap (λ c, match c with DbSave doc => Some doc | _ => None end) (calls r).

(** The [console.error] lines of a run that report a failed save. *)
Definition loggedFailures (r : Run) : list DbError :=
  omap (λ c, match c with ErrorSaveFailed e => Some e | _ => None end) (calls r).

(** At most 50 snapshots, the pointer inside [-1, length - 1], and at -1
    only while the history is empty. *)
Definition historyOk (s : DataState) : Prop :=
  len (history s) ≤ 50
  ∧ -1 ≤ historyPointer s ≤ len (history s) - 1
  ∧ (historyPointer s = -1 → history s = []).

(** [newHistory] of [saveData] before the cap is applied. *)
Definition appended (s : DataState) (mergedData : AppData) : list AppData :=
  push (slice0 (history s) (historyPointer s + 1)) mergedData.

(** Current data is the snapshot under the pointer. *)
Definition inSync (s : DataState) : Prop :=
  data s = index (history s) (historyPointer s).

End Model.

(** ** A concrete instance, for the scenarios at the end *)

Definition plainSchema : Schema :=
  {| Subject := string; SchoolClass := string; Room := string;
     ScheduleItem := string; Substitution := string;
     BellSchedule := list string; SettingValue := Z;
     TeacherInfo := string; User := option string; email := id;
     DbError := string |}.

Section Fixtures.
Local Existing Instance plainSchema.

(** A defaults document that ships one teacher and one bell. *)
Definition demoDefaults : AppData :=
  {| subjects := Present ["Algebra"%string];
     teachers := Present [mkTeacher Missing Missing "Ivanova"%string];
     classes := Present [];
     rooms := Present [];
     schedule := Present [];
     substitutions := Present [];
     bellSchedule := Present ["08:00"%string];
     settings := Present {[ "theme"%string := 1; "weeks"%string := 2 ]} |}.

Definition demoBells : BellSchedule := ["08:30"%string].

(** A defaults document whose collections are all empty. *)
Definition bareDefaults : AppData :=
  {| subjects := Present []; teachers := Present []; classes := Present [];
     rooms := Present []; schedule := Present []; substitutions := Present [];
     bellSchedule := Present demoBells; settings := Present ∅ |}.

Definition adminUser : User := Some ADMIN_EMAIL.
Definition strangerUser : User := Some "someone@example.com"%string.

(** The admin signs in, then [setGuestRole] is called. *)
Definition signedInGuest : AuthState :=
  setGuestRole (authListener true (Some adminUser) authInitial).1.

Definition adminAuth : AuthState := (authListener true (Some adminUser) authInitial).1.
Definition guestAuth : AuthState := setGuestRole authInitial.
Definition nobodyAuth : AuthState := (authListener true None authInitial).1.

Definition onlySubjects (l : list Subject) : AppData :=
  mkAppData (Present l) Missing Missing Missing Missing Missing Missing Missing.

Definition onlySettings (m : gmap string SettingValue) : AppData :=
  mkAppData Missing Missing Missing Missing Missing Missing Missing (Present m).


(** First delivery and two saves with history. *)
Definition twoSavesState : DataState :=
  runAll demoDefaults demoBells
    [ Deliver emptyObject;
      SaveData (mkEnv None adminAuth) None (onlySubjects ["Physics"%string]) None;
      SaveData (mkEnv None adminAuth) None (onlySubjects ["Chemistry"%string]) None ]
    (initialState demoDefaults).

(** [twoSavesState] after one [undo]. *)
Definition undoneState : DataState :=
  next (undo (mkEnv None adminAuth) None twoSavesState).

Definition seededState : DataState :=
  next (onData demoDefaults demoBells emptyObject (initialState demoDefaults)).

End Fixtures.

(** ** The narrowing providers of DataContext.tsx (lines 166-242) *)

Section Consumers.
Context `{Σ : Schema}.

(** [StaticAppData] and [ScheduleAndSubstitutionData] of [../types], with the
    keys the two providers read.  As an update ([Partial<...>]) a key may be
    missing. *)
Record StaticAppData : Type := mkStatic {
  staticSubjects : prop (list Subject);
  staticTeachers : prop (list Teacher);
  staticClasses : prop (list SchoolClass);
  staticRooms : prop (list Room);
  staticBellSchedule : prop BellSchedule;
  staticSettings : prop (gmap string SettingValue)
}.

Record ScheduleAndSubstitutionData : Type := mkSchedule {
  viewSchedule : prop (list ScheduleItem);
  viewSubstitutions : prop (list Substitution)
}.

(** [staticData] of [StaticDataProvider] (lines 180-187).  Reading a key of
    [undefined] throws: [None]. *)
Definition staticData (d : option AppData) : option StaticAppData :=
  (λ data,
     {| staticSubjects := read (subjects data);
        staticTeachers := read (teachers data);
        staticClasses := read (classes data);
        staticRooms := read (rooms data);
        staticBellSchedule := read (bellSchedule data);
        staticSettings := read (settings data) |}) <$> d.

(** [scheduleData] of [ScheduleDataProvider] (lines 208-211). *)
Definition scheduleData (d : option AppData) : option ScheduleAndSubstitutionData :=
  (λ data,
     {| viewSchedule := read (schedule data);
        viewSubstitutions := read (substitutions data) |}) <$> d.

(** A static or schedule update seen as the [Partial<AppData>] that
    [saveData] receives. *)
Definition staticUpdate (u : StaticAppData) : AppData :=
  {| subjects := staticSubjects u;
     teachers := staticTeachers u;
     classes := staticClasses u;
     rooms := staticRooms u;
     schedule := Missing;
     substitutions := Missing;
     bellSchedule := staticBellSchedule u;
     settings := staticSettings u |}.

Definition scheduleUpdate (u : ScheduleAndSubstitutionData) : AppData :=
  {| subjects := Missing;
     teachers := Missing;
     classes := Missing;
     rooms := Missing;
     schedule := viewSchedule u;
     substitutions := viewSubstitutions u;
     bellSchedule := Missing;
     settings := Missing |}.

(** [saveStaticData] (lines 189-191) and [saveScheduleData] (lines 213-215) *)
Definition saveStaticData (env : Env) (reply : option DbError) (s : DataState)
    (newData : StaticAppData) (addToHistory : option bool) : Run :=
  saveData env reply s (staticUpdate newData) addToHistory.

Definition saveScheduleData (env : Env) (reply : option DbError) (s : DataState)
    (newData : ScheduleAndSubstitutionData) (addToHistory : option bool) : Run :=
  saveData env reply s (scheduleUpdate newData) addToHistory.

(** An AppData object that has all eight keys. *)
Definition complete (d : AppData) : Prop :=
  subjects d ≠ Missing ∧ teachers d ≠ Missing ∧ classes d ≠ Missing
  ∧ rooms d ≠ Missing ∧ schedule d ≠ Missing ∧ substitutions d ≠ Missing
  ∧ bellSchedule d ≠ Missing ∧ settings d ≠ Missing.

(** ** AuthProvider as a transition system *)

Inductive AuthAction : Type :=
| Notify (currentUser : option User)      (* the auth service calls the listener *)
| Logout (signOutRejects : bool)
| SetGuestRole.

(** [client] is whether [../services/firebase] exported an [auth] client; the
    listener exists only then. *)
Definition authStep (client : bool) (a : AuthAction) (s : AuthState)
  : AuthState * list AuthCall :=
  match a with
  | Notify currentUser =>
      match (authEffect client s).2 with
      | Some listener => listener currentUser s
      | None => (s, [])
      end
  | Logout signOutRejects => logout client signOutRejects s
  | SetGuestRole => (setGuestRole s, [])
  end.

Inductive authReachable (client : bool) : AuthState → Prop :=
| authReachable_mounted : authReachable client (authEffect client authInitial).1.1
| authReachable_step a s :
    authReachable client s → authReachable client (authStep client a s).1.

(** A privileged role is backed by the identity it was derived from. *)
Definition roleBacked (s : AuthState) : Prop :=
  match role s with
  | Some admin => ∃ u, user s = Some u ∧ email u = Some ADMIN_EMAIL
  | Some teacher => ∃ u, user s = Some u ∧ email u = Some TEACHER_EMAIL
  | _ => True
  end.

End Consumers.

(** ** services/firebase.ts *)

Module Firebase.
Section Init.
Variables (App Firestore Auth InitError : Type).

(** [firebaseConfig]: the six build-time values, [None] when the variable is
    not set. *)
Record Config : Type := mkConfig {
  apiKey : option string;
  authDomain : option string;
  projectId : option string;
  storageBucket : option string;
  messagingSenderId : option string;
  appId : option string
}.

(** What the SDK answers to the calls of the module: a value or a throw. *)
Record Sdk : Type := mkSdk {
  appsLength : nat;                               (* firebase.apps.length *)
  initializeApp : Config → InitError + App;       (* firebase.initializeApp(cfg) *)
  existingApp : InitError + App;                  (* firebase.app() *)
  firestore : InitError + Firestore;              (* firebase.firestore() *)
  authClient : InitError + Auth                   (* firebase.auth() *)
}.

Inductive Event : Type :=
| CallInitializeApp (cfg : Config)
| CallApp
| CallFirestore
| CallAuth
| ErrorMissingKey             (* console.error("CRITICAL ERROR: ...") *)
| LogInitialized              (* console.log("Firebase initialized successfully") *)
| ErrorInitFailed (e : InitError).

(** The three module-level bindings after the module body ran. *)
Record Bindings : Type := mkBindings {
  app : option App;
  firestoreDB : option Firestore;
  auth : option Auth
}.

(** [!s] on a string-or-undefined value *)
Definition falsyString (s : option string) : bool :=
  match s with
  | None => true
  | Some v => String.eqb v ""
  end.

(** The module body (lines 22-44). *)
Definition init (cfg : Config) (sdk : Sdk) : Bindings * list Event :=
  if falsyString (apiKey cfg) then (mkBindings None None None, [ErrorMissingKey])
  else
    let '(call, made) :=
      if Nat.eqb (appsLength sdk) 0
      then (CallInitializeApp cfg, initializeApp sdk cfg)
      else (CallApp, existingApp sdk) in
    match made with
    | inl e => (mkBindings None None None, [call; ErrorInitFailed e])
    | inr a =>
        match firestore sdk with
        | inl e => (mkBindings (Some a) None None, [call; CallFirestore; ErrorInitFailed e])
        | inr db =>
            match authClient sdk with
            | inl e =>
                (mkBindings (Some a) (Some db) None,
                 [call; CallFirestore; CallAuth; ErrorInitFailed e])
            | inr au =>
                (mkBindings (Some a) (Some db) (Some au),
                 [call; CallFirestore; CallAuth; LogInitialized])
            end
        end
    end.

Definition isSdkCall (e : Event) : bool :=
  match e with
  | CallInitializeApp _ | CallApp | CallFirestore | CallAuth => true
  | _ => false
  end.

Definition isError (e : Event) : bool :=
  match e with
  | ErrorMissingKey | ErrorInitFailed _ => true
  | _ => false
  end.

End Init.
End Firebase.

(** ** More of the concrete instance *)

Section MoreFixtures.
Local Existing Instance plainSchema.

Definition teacherUser : User := Some TEACHER_EMAIL.

(** A defaults document without a [subjects] key. *)
Definition partialDefaults : AppData :=
  {| subjects := Missing; teachers := Present []; classes := Present [];
     rooms := Present []; schedule := Present []; substitutions := Present [];
     bellSchedule := Present demoBells; settings := Present ∅ |}.


Definition demoConfig : Firebase.Config :=
  Firebase.mkConfig (Some "key"%string) None None None None None.


(** An SDK with no app yet whose [auth()] throws. *)
Definition brokenAuthSdk : Firebase.Sdk unit unit unit string :=
  Firebase.mkSdk unit unit unit string 0%nat (λ _, inr tt) (inl "no app"%string)
    (inr tt) (inl "auth unavailable"%string).

Definition healthySdk : Firebase.Sdk unit unit unit string :=
  Firebase.mkSdk unit unit unit string 1%nat (λ _, inl "duplicate app"%string) (inr tt)
    (inr tt) (inr tt).

End MoreFixtures.

(** ** Properties *)

Section Properties.
Context `{Σ : Schema}.
Variable INITIAL_DATA : AppData.
Variable DEFAULT_BELLS : BellSchedule.

Local Abbreviation reachable := (reachable INITIAL_DATA DEFAULT_BELLS).
Local Abbreviation perform := (perform INITIAL_DATA DEFAULT_BELLS).
Local Abbreviation onData := (onData INITIAL_DATA DEFAULT_BELLS).
Local Abbreviation fixData := (fixData INITIAL_DATA DEFAULT_BELLS).

(** *** Array primitives *)

Lemma len_nonneg {A} (l : list A) : 0 ≤ len l.
Proof. unfold len. lia. Qed.

Lemma len_nil_iff {A} (l : list A) : len l = 0 ↔ l = [].
Proof. unfold len. destruct l; simpl; split; intros; try done; lia. Qed.

Lemma len_slice0 {A} (l : list A) (e : Z) :
  0 ≤ e → len (slice0 l e) = Z.min e (len l).
Proof.
  intros He. unfold slice0, len.
  destruct (Z.ltb_spec e 0) as [?|_]; [lia|].
  rewrite length_take. lia.
Qed.

Lemma len_push {A} (l : list A) (x : A) : len (push l x) = len l + 1.
Proof. unfold push, len. rewrite length_app. simpl. lia. Qed.

Lemma len_shift {A} (l : list A) : 0 < len l → len (shift l) = len l - 1.
Proof. unfold shift, len. destruct l; simpl; lia. Qed.

Lemma slice0_all {A} (l : list A) : slice0 l (len l) = l.
Proof.
  unfold slice0, len.
  destruct (Z.ltb_spec (Z.of_nat (length l)) 0) as [?|_]; [lia|].
  rewrite Z.min_id, Nat2Z.id. apply firstn_all.
Qed.


(** *** The history invariant *)

Lemma historyOk_initial : historyOk (initialState INITIAL_DATA).
Proof. unfold historyOk; simpl. unfold len; simpl. repeat split; lia. Qed.

Lemma saveData_next env reply s newData a :
  next (saveData env reply s newData a) =
    let mergedData := spreadData (spreadable (data s)) newData in
    if default true a then
      let kept := if 50 <? len (appended s mergedData)
                  then shift (appended s mergedData) else appended s mergedData in
      mkState (Some mergedData) (isLoading s) kept (len kept - 1)
    else mkState (Some mergedData) (isLoading s) (history s) (historyPointer s).
Proof. unfold saveData, appended. simpl. destruct (default true a); reflexivity. Qed.

Lemma len_appended s d :
  -1 ≤ historyPointer s ≤ len (history s) - 1 →
  len (appended s d) = historyPointer s + 2.
Proof.
  intros Hp. unfold appended. rewrite len_push, len_slice0 by lia. lia.
Qed.

Lemma historyOk_saveData env reply s newData a :
  historyOk s → historyOk (next (saveData env reply s newData a)).
Proof.
  intros (Hlen & Hp & Hm). rewrite saveData_next. cbv zeta.
  destruct (default true a); [|by unfold historyOk].
  set (d := spreadData _ _).
  pose proof (len_appended s d Hp) as Happ.
  unfold historyOk; simpl.
  destruct (Z.ltb_spec 50 (len (appended s d))) as [Hov|Hfit].
  - rewrite len_shift by lia. repeat split; try lia.
  - repeat split; try lia.
Qed.

Lemma historyOk_undo env reply s : historyOk s → historyOk (next (undo env reply s)).
Proof.
  intros (Hlen & Hp & Hm). unfold undo.
  destruct (Z.ltb_spec 0 (historyPointer s)) as [Hpos|Hnot]; [|by unfold historyOk].
  destruct (persistSnapshot _ _ _) as [out res]. unfold historyOk; simpl.
  repeat split; lia.
Qed.

Lemma historyOk_redo env reply s : historyOk s → historyOk (next (redo env reply s)).
Proof.
  intros (Hlen & Hp & Hm). unfold redo.
  destruct (Z.ltb_spec (historyPointer s) (len (history s) - 1)) as [Hlt|Hnot];
    [|by unfold historyOk].
  destruct (persistSnapshot _ _ _) as [out res]. unfold historyOk; simpl.
  repeat split; lia.
Qed.

Lemma historyOk_onData loaded s : historyOk s → historyOk (next (onData loaded s)).
Proof.
  intros (Hlen & Hp & Hm). unfold historyOk; simpl.
  destruct (Z.eqb_spec (len (history s)) 0) as [Hemp|Hne].
  - assert (historyPointer s = -1) as -> by lia. simpl.
    unfold len; simpl. repeat split; lia.
  - destruct (Z.eqb_spec (historyPointer s) (-1)) as [Hm1|Hp'].
    + apply Hm in Hm1. apply len_nil_iff in Hm1. lia.
    + repeat split; lia.
Qed.

Lemma historyOk_dataEffect env s : historyOk s → historyOk (next (dataEffect INITIAL_DATA env s)).
Proof.
  intros Hs. unfold dataEffect.
  destruct (initialData env); [unfold historyOk, len; simpl; repeat split; lia|].
  destruct (loading (auth env)); [done|].
  destruct (negb _); by unfold historyOk.
Qed.

Lemma historyOk_perform a s : historyOk s → historyOk (next (perform a s)).
Proof.
  intros Hs. destruct a as [env|loaded| |env reply newData a|env reply|env reply|env reply].
  - by apply historyOk_dataEffect.
  - by apply historyOk_onData.
  - exact Hs.
  - by apply historyOk_saveData.
  - by apply historyOk_undo.
  - by apply historyOk_redo.
  - by apply (historyOk_saveData env reply s INITIAL_DATA None).
Qed.

Lemma reachable_historyOk s : reachable s → historyOk s.
Proof.
  induction 1 as [|a s _ IH]; [apply historyOk_initial | by apply historyOk_perform].
Qed.

Lemma reachable_runAll acts s :
  reachable s → reachable (runAll INITIAL_DATA DEFAULT_BELLS acts s).
Proof.
  revert s. induction acts as [|a acts IH]; intros s Hs; simpl; [done|].
  apply IH. by constructor.
Qed.

(** *** The write path and its persistence gate *)

Lemma saveData_settled env reply s newData a :
  settled (saveData env reply s newData a) = Fulfilled.
Proof. unfold saveData. by destruct (default true a). Qed.

Lemma saveData_data env reply s newData a :
  data (next (saveData env reply s newData a))
  = Some (spreadData (spreadable (data s)) newData).
Proof. rewrite saveData_next. cbv zeta. by destruct (default true a). Qed.

Lemma saveData_calls env reply s newData a :
  calls (saveData env reply s newData a) =
    let isGuest := negb (truthy (user (auth env))) && isGuestRole (role (auth env)) in
    if negb (truthy (initialData env)) && truthy (user (auth env)) && negb isGuest then
      DbSave (Some (spreadData (spreadable (data s)) newData)) ::
        match reply with Some e => [ErrorSaveFailed e] | None => [] end
    else if isGuest then [WarnGuestCannotSave]
    else [].
Proof. unfold saveData. by destruct (default true a). Qed.

(** C1 (as amended): a [saveData] call made with the role cell at guest
    and no signed-in user never reaches [dbService.save]; it warns, applies
    the merge to the local data and resolves. *)
Theorem guest_without_session_saves_locally env reply s newData a :
  user (auth env) = None →
  role (auth env) = Some guest →
  persisted (saveData env reply s newData a) = []
  ∧ calls (saveData env reply s newData a) = [WarnGuestCannotSave]
  ∧ data (next (saveData env reply s newData a))
    = Some (spreadData (spreadable (data s)) newData)
  ∧ settled (saveData env reply s newData a) = Fulfilled.
Proof.
  intros Hu Hr.
  assert (calls (saveData env reply s newData a) = [WarnGuestCannotSave]) as Hc.
  { rewrite saveData_calls, Hu, Hr. simpl. by rewrite andb_false_r. }
  split; [by unfold persisted; rewrite Hc|].
  split; [done|]. split; [apply saveData_data | apply saveData_settled].
Qed.

(** C10: without a signed-in user neither [saveData] nor [undo] nor [redo]
    calls [dbService.save], whatever the role; the local state moves exactly
    as it does otherwise, history append included. *)
Theorem no_user_no_persistence env reply s newData a :
  user (auth env) = None →
  persisted (saveData env reply s newData a) = []
  ∧ persisted (undo env reply s) = []
  ∧ persisted (redo env reply s) = []
  ∧ next (saveData env reply s newData a) =
      (let mergedData := spreadData (spreadable (data s)) newData in
       if default true a then
         let kept := if 50 <? len (appended s mergedData)
                     then shift (appended s mergedData) else appended s mergedData in
         mkState (Some mergedData) (isLoading s) kept (len kept - 1)
       else mkState (Some mergedData) (isLoading s) (history s) (historyPointer s))
  ∧ next (undo env reply s) =
      (if 0 <? historyPointer s
       then mkState (index (history s) (historyPointer s - 1)) (isLoading s)
              (history s) (historyPointer s - 1)
       else s)
  ∧ next (redo env reply s) =
      (if historyPointer s <? len (history s) - 1
       then mkState (index (history s) (historyPointer s + 1)) (isLoading s)
              (history s) (historyPointer s + 1)
       else s).
Proof.
  intros Hu.
  assert (persistSnapshot env reply = λ _, ([], Fulfilled)) as Hps.
  { unfold persistSnapshot. rewrite Hu. simpl. by rewrite andb_false_r. }
  repeat split.
  - unfold persisted. rewrite saveData_calls, Hu. simpl. rewrite andb_false_r.
    by destruct (isGuestRole _).
  - unfold undo. rewrite Hps. by destruct (0 <? historyPointer s).
  - unfold redo. rewrite Hps. by destruct (historyPointer s <? _).
  - apply saveData_next.
  - unfold undo. rewrite Hps. by destruct (0 <? historyPointer s).
  - unfold redo. rewrite Hps. by destruct (historyPointer s <? _).
Qed.

(** *** Undo and redo *)

(** C5: [undo] with the pointer at 0 and [redo] with the pointer on the
    last snapshot change nothing and call nothing. *)
Theorem undo_redo_at_the_ends_do_nothing env reply s t :
  historyPointer s = 0 →
  historyPointer t = len (history t) - 1 →
  undo env reply s = mkRun s [] Fulfilled
  ∧ redo env reply t = mkRun t [] Fulfilled
  ∧ persisted (undo env reply s) = []
  ∧ persisted (redo env reply t) = [].
Proof.
  intros Hs Ht.
  assert (undo env reply s = mkRun s [] Fulfilled) as Hu.
  { unfold undo. by rewrite Hs. }
  assert (redo env reply t = mkRun t [] Fulfilled) as Hr.
  { unfold redo. by rewrite Ht, Z.ltb_irrefl. }
  by rewrite Hu, Hr.
Qed.

(** C3 (what the code does): when [dbService.save] rejects with [e],
    [saveData] logs [e] and resolves, but [undo] and [redo] log nothing and
    reject with [e]; in all three the state change made before the call
    stays. *)
Theorem undo_redo_rejection_escapes env e s t newData a :
  initialData env = None →
  is_Some (user (auth env)) →
  0 < historyPointer s →
  historyPointer t < len (history t) - 1 →
  (settled (undo env (Some e) s) = Rejected e
   ∧ loggedFailures (undo env (Some e) s) = []
   ∧ next (undo env (Some e) s) = next (undo env None s))
  ∧ (settled (redo env (Some e) t) = Rejected e
     ∧ loggedFailures (redo env (Some e) t) = []
     ∧ next (redo env (Some e) t) = next (redo env None t))
  ∧ (settled (saveData env (Some e) s newData a) = Fulfilled
     ∧ loggedFailures (saveData env (Some e) s newData a) = [e]
     ∧ next (saveData env (Some e) s newData a) = next (saveData env None s newData a)).
Proof.
  intros Hi [u Hu] Hs Ht.
  assert (∀ r doc, persistSnapshot env r doc =
            ([DbSave doc], match r with Some e => Rejected e | None => Fulfilled end)) as Hps.
  { intros r doc. unfold persistSnapshot. by rewrite Hi, Hu. }
  split; [|split].
  - unfold undo. rewrite !Hps. by destruct (Z.ltb_spec 0 (historyPointer s)); [|lia].
  - unfold redo. rewrite !Hps.
    by destruct (Z.ltb_spec (historyPointer t) (len (history t) - 1)); [|lia].
  - split; [apply saveData_settled|]. split.
    + unfold loggedFailures. rewrite saveData_calls, Hi, Hu. reflexivity.
    + by rewrite !saveData_next.
Qed.

(** *** The session listener *)

Lemma emailIs_false u c : email u ≠ Some c → emailIs u c = false.
Proof.
  intros Hne. unfold emailIs. destruct (email u) as [e|]; [|done].
  destruct (String.eqb_spec e c) as [->|]; [by destruct Hne | done].
Qed.

(** C6: a notification carrying a signed-in identity whose email is neither
    the admin nor the teacher address leaves the role at null and calls
    [signOut] exactly once. *)
Theorem unknown_identity_is_signed_out client s0 listener (u : User) s :
  (authEffect client s0).2 = Some listener →
  email u ≠ Some ADMIN_EMAIL →
  email u ≠ Some TEACHER_EMAIL →
  role (listener (Some u) s).1 = None
  ∧ (listener (Some u) s).2 = [SignOut]
  ∧ user (listener (Some u) s).1 = Some u.
Proof.
  intros Hreg Ha Ht. unfold authEffect in Hreg.
  destruct client; simpl in Hreg; [|done].
  injection Hreg as <-. unfold authListener.
  by rewrite (emailIs_false _ _ Ha), (emailIs_false _ _ Ht).
Qed.

(** *** History *)

Lemma saveData_history env reply s newData a :
  historyOk s →
  default true a = true →
  let mergedData := spreadData (spreadable (data s)) newData in
  let s' := next (saveData env reply s newData a) in
  len (history s') ≤ 50
  ∧ historyPointer s' = len (history s') - 1
  ∧ history s' = (if 50 <? len (appended s mergedData)
                  then drop 1 (appended s mergedData) else appended s mergedData)
  ∧ last (history s') = Some mergedData.
Proof.
  intros Hok Ha mergedData s'.
  pose proof (historyOk_saveData env reply s newData a Hok) as (Hlen' & _ & _).
  destruct Hok as (Hlen & Hp & Hm).
  assert (history s' = (if 50 <? len (appended s mergedData)
                        then drop 1 (appended s mergedData) else appended s mergedData)
          ∧ historyPointer s' = len (history s') - 1) as [Hh Hptr].
  { subst s'. rewrite saveData_next. cbv zeta. rewrite Ha. simpl.
    unfold shift. split; [|done]. subst mergedData.
    destruct (50 <? len (appended s _)); [|done].
    by destruct (appended s _). }
  repeat split; try done.
  rewrite Hh. pose proof (len_appended s mergedData Hp) as Happ.
  unfold appended, push in *.
  destruct (Z.ltb_spec 50 (len (slice0 (history s) (historyPointer s + 1) ++ [mergedData])))
    as [Hov|_]; [|apply last_snoc].
  destruct (slice0 (history s) (historyPointer s + 1)) as [|x l] eqn:Hsl.
  - unfold len in Hov; simpl in Hov; lia.
  - simpl. rewrite drop_0. apply last_snoc.
Qed.

(** C2: from any state the provider can be in, a [saveData] call that adds
    to the history leaves at most 50 snapshots with the pointer on the last
    one; the pointer of every reachable state lies in [-1, length - 1];
    when the append overflows the cap it is the first (oldest) snapshot that
    goes, and the state after the call is again reachable, so the same holds
    after each call of any sequence. *)
Theorem history_capped_pointer_at_tail env reply s newData a :
  reachable s →
  default true a = true →
  let mergedData := spreadData (spreadable (data s)) newData in
  let s' := next (saveData env reply s newData a) in
  len (history s') ≤ 50
  ∧ historyPointer s' = len (history s') - 1
  ∧ -1 ≤ historyPointer s ≤ len (history s) - 1
  ∧ history s' = (if 50 <? len (appended s mergedData)
                  then drop 1 (appended s mergedData) else appended s mergedData)
  ∧ last (history s') = Some mergedData
  ∧ reachable s'.
Proof.
  intros Hs Ha mergedData s'.
  pose proof (reachable_historyOk s Hs) as Hok.
  destruct (saveData_history env reply s newData a Hok Ha) as (Hl & Hp & Hh & Hlast).
  destruct Hok as (_ & Hrange & _).
  repeat split; try done; try apply Hrange.
  apply (reachable_perform _ _ (SaveData env reply newData a) s Hs).
Qed.

(** After any run of history-adding saves the cap and the tail pointer hold. *)
Lemma saves_keep_history_capped (batch : list (Env * option DbError * AppData)) s :
  reachable s →
  batch ≠ [] →
  let s' := runAll INITIAL_DATA DEFAULT_BELLS
              (map (λ '(env, reply, newData), SaveData env reply newData None) batch) s in
  len (history s') ≤ 50 ∧ historyPointer s' = len (history s') - 1.
Proof.
  revert s. induction batch as [|[[env reply] newData] batch IH]; intros s Hs Hne; [done|].
  simpl.
  destruct (saveData_history env reply s newData None (reachable_historyOk s Hs) eq_refl)
    as (Hl & Hp & _).
  destruct batch as [|c batch]; [by split|].
  apply IH; [|done].
  apply (reachable_perform _ _ (SaveData env reply newData None) s Hs).
Qed.



(** *** The subscription listener *)

(** C8: a delivery always replaces the current data; it seeds history and
    pointer when the history is empty and leaves both as they are
    otherwise. *)
Theorem delivery_seeds_history_once loaded s :
  reachable s →
  let s' := next (onData loaded s) in
  data s' = Some (fixData loaded)
  ∧ (history s = [] → history s' = [fixData loaded] ∧ historyPointer s' = 0)
  ∧ (history s ≠ [] → history s' = history s ∧ historyPointer s' = historyPointer s).
Proof.
  intros Hs. pose proof (reachable_historyOk s Hs) as (Hlen & Hp & Hm).
  simpl. split; [done|]. split.
  - intros He. rewrite He in *. unfold len in *; simpl in *.
    assert (historyPointer s = -1) as -> by lia. done.
  - intros Hne.
    destruct (Z.eqb_spec (len (history s)) 0) as [H0|_]; [by apply len_nil_iff in H0|].
    destruct (Z.eqb_spec (historyPointer s) (-1)) as [Hm1|_]; [by apply Hm in Hm1|].
    done.
Qed.

Lemma normalizeTeacher_defaults (t : Teacher) :
  (shifts t = Missing → shifts (normalizeTeacher t) = Present [First; Second])
  ∧ (telegramChatId t = Missing → telegramChatId (normalizeTeacher t) = Present ""%string)
  ∧ (shifts t ≠ Missing → shifts (normalizeTeacher t) = shifts t)
  ∧ (telegramChatId t ≠ Missing → telegramChatId (normalizeTeacher t) = telegramChatId t)
  ∧ teacherInfo (normalizeTeacher t) = teacherInfo t.
Proof.
  unfold normalizeTeacher; simpl.
  destruct (shifts t), (telegramChatId t); repeat split; done.
Qed.

(** For which defaults the delivery of a document without [teachers] comes
    out with an empty array: exactly those that hold no teacher. *)
Lemma missing_teachers_empty_iff :
  (∀ loaded, teachers loaded = Missing → teachers (fixData loaded) = Present [])
  ↔ orDefault (teachers INITIAL_DATA) [] = [].
Proof.
  split.
  - intros Hall. specialize (Hall emptyObject eq_refl).
    unfold fixData in Hall; simpl in Hall. injection Hall as Hall.
    by destruct (orDefault (teachers INITIAL_DATA) []).
  - intros Hemp loaded Hm. unfold fixData; simpl. rewrite Hm.
    destruct (teachers INITIAL_DATA) as [| |ts]; simpl in *; [done..|by rewrite Hemp].
Qed.


(** C9: [saveData] merges at the top level only: a [settings] object in the
    update becomes the [settings] of the current data as it is, whatever
    the settings were before; the listener of the subscription instead lays
    the delivered settings over those of INITIAL_DATA key by key. *)
Theorem save_replaces_settings_load_merges env reply s newData a loaded m m' :
  settings newData = Present m →
  settings loaded = Present m' →
  settings <$> data (next (saveData env reply s newData a)) = Some (Present m)
  ∧ settings (fixData loaded) = Present (m' ∪ ownKeys (settings INITIAL_DATA))
  ∧ (∀ k, (m' ∪ ownKeys (settings INITIAL_DATA)) !! k
          = match m' !! k with
            | Some v => Some v
            | None => ownKeys (settings INITIAL_DATA) !! k
            end).
Proof.
  intros Hn Hl. split; [|split].
  - rewrite saveData_data. simpl. by rewrite Hn.
  - unfold fixData. simpl. by rewrite Hl.
  - intros k. rewrite lookup_union. by destruct (m' !! k), (ownKeys _ !! k).
Qed.

End Properties.

(** ** Scenarios on the concrete instance *)

Section Scenarios.
Local Existing Instance plainSchema.

Local Abbreviation reachable := (reachable demoDefaults demoBells).

Lemma seededState_reachable : reachable seededState.
Proof. apply (reachable_perform _ _ (Deliver emptyObject)). constructor. Qed.

Lemma twoSavesState_reachable : reachable twoSavesState.
Proof. apply reachable_runAll. constructor. Qed.


Lemma undoneState_reachable : reachable undoneState.
Proof.
  apply (reachable_perform _ _ (Undo (mkEnv None adminAuth) None)).
  apply twoSavesState_reachable.
Qed.

(** A guest who never signed in saves: a warning, no store call. *)
Lemma guest_without_session_saves_locally_witness :
  user (auth (mkEnv None guestAuth)) = None
  ∧ role (auth (mkEnv None guestAuth)) = Some guest
  ∧ persisted (saveData (mkEnv None guestAuth) None seededState
                 (onlySubjects ["Physics"%string]) None) = [].
Proof.
  split; [reflexivity|]. split; [reflexivity|].
  apply (guest_without_session_saves_locally (mkEnv None guestAuth) None seededState
           (onlySubjects ["Physics"%string]) None); reflexivity.
Defined.

(** C1 (as stated) fails: the admin signs in and [setGuestRole] runs; the
    role is guest, the user is still there, and [saveData] writes to the
    store. *)
Lemma signed_in_guest_save_reaches_store :
  role signedInGuest = Some guest
  ∧ user signedInGuest = Some adminUser
  ∧ calls (saveData (mkEnv None signedInGuest) None seededState
             (onlySubjects ["Physics"%string]) None)
    = [DbSave (Some (spreadData (spreadable (data seededState))
                       (onlySubjects ["Physics"%string])))].
Proof. repeat split. Qed.

Lemma history_capped_pointer_at_tail_witness :
  reachable twoSavesState
  ∧ default true (@None bool) = true
  ∧ (let s' := next (saveData (mkEnv None adminAuth) None twoSavesState
                       (onlySubjects ["Biology"%string]) None) in
     len (history s') ≤ 50 ∧ historyPointer s' = len (history s') - 1).
Proof.
  split; [apply twoSavesState_reachable|]. split; [reflexivity|].
  destruct (history_capped_pointer_at_tail demoDefaults demoBells
              (mkEnv None adminAuth) None twoSavesState
              (onlySubjects ["Biology"%string]) None
              twoSavesState_reachable eq_refl) as (Hl & Hp & _).
  exact (conj Hl Hp).
Defined.

(** 51 saves in a row from the first render: 50 snapshots stay, the pointer
    is on the last, and the snapshot of the first save is the one gone. *)
Example fifty_one_saves :
  let save (i : nat) :=
    SaveData (mkEnv None adminAuth) None (onlySubjects [pretty i]) None in
  let s' := runAll demoDefaults demoBells (map save (seq 1 51)) (initialState demoDefaults) in
  len (history s') = 50
  ∧ historyPointer s' = 49
  ∧ subjects <$> head (history s') = Some (Present [pretty 2%nat])
  ∧ subjects <$> last (history s') = Some (Present [pretty 51%nat]).
Proof. vm_compute. repeat split. Qed.

Lemma undo_redo_rejection_escapes_witness :
  initialData (mkEnv None adminAuth) = None
  ∧ is_Some (user (auth (mkEnv None adminAuth)))
  ∧ 0 < historyPointer twoSavesState
  ∧ historyPointer undoneState < len (history undoneState) - 1
  ∧ settled (undo (mkEnv None adminAuth) (Some "unavailable"%string) twoSavesState)
    = Rejected "unavailable"%string
  ∧ loggedFailures (undo (mkEnv None adminAuth) (Some "unavailable"%string) twoSavesState)
    = [].
Proof.
  assert (is_Some (user (auth (mkEnv None adminAuth)))) as Hu by (eexists; reflexivity).
  assert (0 < historyPointer twoSavesState) as H1 by (vm_compute; reflexivity).
  assert (historyPointer undoneState < len (history undoneState) - 1) as H2
    by (vm_compute; reflexivity).
  destruct (undo_redo_rejection_escapes (mkEnv None adminAuth) "unavailable"%string
              twoSavesState undoneState emptyObject None eq_refl Hu H1 H2)
    as ((Hr & Hlog & _) & _).
  exact (conj eq_refl (conj Hu (conj H1 (conj H2 (conj Hr Hlog))))).
Defined.



Lemma undo_redo_at_the_ends_do_nothing_witness :
  historyPointer seededState = 0
  ∧ historyPointer twoSavesState = len (history twoSavesState) - 1
  ∧ undo (mkEnv None adminAuth) None seededState = mkRun seededState [] Fulfilled
  ∧ redo (mkEnv None adminAuth) None twoSavesState = mkRun twoSavesState [] Fulfilled.
Proof.
  assert (historyPointer seededState = 0) as H1 by reflexivity.
  assert (historyPointer twoSavesState = len (history twoSavesState) - 1) as H2
    by reflexivity.
  destruct (undo_redo_at_the_ends_do_nothing (mkEnv None adminAuth) None
              seededState twoSavesState H1 H2) as (Hu & Hr & _).
  exact (conj H1 (conj H2 (conj Hu Hr))).
Defined.

Lemma unknown_identity_is_signed_out_witness :
  (authEffect true authInitial).2 = Some (authListener true)
  ∧ email strangerUser ≠ Some ADMIN_EMAIL
  ∧ email strangerUser ≠ Some TEACHER_EMAIL
  ∧ role (authListener true (Some strangerUser) authInitial).1 = None
  ∧ (authListener true (Some strangerUser) authInitial).2 = [SignOut].
Proof.
  assert (email strangerUser ≠ Some ADMIN_EMAIL) as Ha by discriminate.
  assert (email strangerUser ≠ Some TEACHER_EMAIL) as Ht by discriminate.
  destruct (unknown_identity_is_signed_out true authInitial (authListener true)
              strangerUser authInitial eq_refl Ha Ht) as (Hr & Hc & _).
  exact (conj eq_refl (conj Ha (conj Ht (conj Hr Hc)))).
Defined.

Lemma delivery_seeds_history_once_witness :
  reachable twoSavesState
  ∧ history twoSavesState ≠ []
  ∧ history (next (onData demoDefaults demoBells (onlySubjects ["Latin"%string])
                     twoSavesState)) = history twoSavesState
  ∧ historyPointer (next (onData demoDefaults demoBells (onlySubjects ["Latin"%string])
                            twoSavesState)) = historyPointer twoSavesState.
Proof.
  assert (history twoSavesState ≠ []) as Hne by discriminate.
  destruct (delivery_seeds_history_once demoDefaults demoBells
              (onlySubjects ["Latin"%string]) twoSavesState twoSavesState_reachable)
    as (_ & _ & Hkeep).
  exact (conj twoSavesState_reachable (conj Hne (Hkeep Hne))).
Defined.



Lemma save_replaces_settings_load_merges_witness :
  settings (onlySettings {[ "theme"%string := 5 ]}) = Present {[ "theme"%string := 5 ]}
  ∧ settings <$> data seededState
    = Some (Present {[ "theme"%string := 1; "weeks"%string := 2 ]})
  ∧ settings <$> data (next (saveData (mkEnv None adminAuth) None seededState
                               (onlySettings {[ "theme"%string := 5 ]}) None))
    = Some (Present {[ "theme"%string := 5 ]})
  ∧ settings (fixData demoDefaults demoBells (onlySettings {[ "theme"%string := 5 ]}))
    = Present ({[ "theme"%string := 5 ]}
               ∪ {[ "theme"%string := 1; "weeks"%string := 2 ]}).
Proof.
  destruct (save_replaces_settings_load_merges demoDefaults demoBells
              (mkEnv None adminAuth) None seededState
              (onlySettings {[ "theme"%string := 5 ]}) None
              (onlySettings {[ "theme"%string := 5 ]})
              {[ "theme"%string := 5 ]} {[ "theme"%string := 5 ]} eq_refl eq_refl)
    as (Hsave & Hload & _).
  split; [reflexivity|]. split; [|exact (conj Hsave Hload)].
  vm_compute. reflexivity.
Defined.

(** The two merges on one key: the default survives a load, not a save. *)
Example weeks_survive_load_not_save :
  (ownKeys (settings (fixData demoDefaults demoBells
                        (onlySettings {[ "theme"%string := 5 ]})))) !! "weeks"%string
    = Some 2
  ∧ (ownKeys (settings (spreadData demoDefaults (onlySettings {[ "theme"%string := 5 ]}))))
      !! "weeks"%string = None.
Proof. split; reflexivity. Qed.

Lemma no_user_no_persistence_witness :
  user (auth (mkEnv None nobodyAuth)) = None
  ∧ persisted (saveData (mkEnv None nobodyAuth) None twoSavesState
                 (onlySubjects ["Biology"%string]) None) = []
  ∧ persisted (undo (mkEnv None nobodyAuth) None twoSavesState) = []
  ∧ persisted (redo (mkEnv None nobodyAuth) None undoneState) = []
  ∧ historyPointer (next (undo (mkEnv None nobodyAuth) None twoSavesState)) = 1.
Proof.
  destruct (no_user_no_persistence (mkEnv None nobodyAuth) None twoSavesState
              (onlySubjects ["Biology"%string]) None eq_refl)
    as (Hs & Hu & _ & _ & Hun & _).
  destruct (no_user_no_persistence (mkEnv None nobodyAuth) None undoneState
              (onlySubjects ["Biology"%string]) None eq_refl)
    as (_ & _ & Hr & _).
  split; [reflexivity|]. split; [exact Hs|]. split; [exact Hu|]. split; [exact Hr|].
  rewrite Hun. reflexivity.
Defined.

End Scenarios.

(** ** Further properties of DataProvider *)

Section HistoryProperties.
Context `{Σ : Schema}.
Variable INITIAL_DATA : AppData.
Variable DEFAULT_BELLS : BellSchedule.

Local Abbreviation reachable := (reachable INITIAL_DATA DEFAULT_BELLS).
Local Abbreviation perform := (perform INITIAL_DATA DEFAULT_BELLS).
Local Abbreviation runAll := (runAll INITIAL_DATA DEFAULT_BELLS).
Local Abbreviation onData := (onData INITIAL_DATA DEFAULT_BELLS).
Local Abbreviation fixData := (fixData INITIAL_DATA DEFAULT_BELLS).
Local Abbreviation resetData := (resetData INITIAL_DATA).
Local Abbreviation dataEffect := (dataEffect INITIAL_DATA).
Local Abbreviation onError := (onError INITIAL_DATA).

Lemma index_is_Some {A} (l : list A) (i : Z) : 0 ≤ i < len l → is_Some (index l i).
Proof.
  intros Hi. unfold index. destruct (Z.ltb_spec i 0); [lia|].
  apply lookup_lt_is_Some. unfold len in Hi. lia.
Qed.



Lemma undo_next env reply s :
  next (undo env reply s) =
    if 0 <? historyPointer s
    then mkState (index (history s) (historyPointer s - 1)) (isLoading s)
           (history s) (historyPointer s - 1)
    else s.
Proof.
  unfold undo. destruct (0 <? historyPointer s); [|done].
  by destruct (persistSnapshot _ _ _).
Qed.

Lemma redo_next env reply s :
  next (redo env reply s) =
    if historyPointer s <? len (history s) - 1
    then mkState (index (history s) (historyPointer s + 1)) (isLoading s)
           (history s) (historyPointer s + 1)
    else s.
Proof.
  unfold redo. destruct (historyPointer s <? len (history s) - 1); [|done].
  by destruct (persistSnapshot _ _ _).
Qed.

Lemma dataEffect_data_defined env s : is_Some (data s) → is_Some (data (next (dataEffect env s))).
Proof.
  intros Hd. unfold dataEffect.
  destruct (initialData env); [by eexists|].
  destruct (loading (auth env)); [done|].
  destruct (negb _); [by eexists | done].
Qed.

(** X1: in every state the provider can reach the current data is an
    object, never [undefined]: [undo] and [redo] only ever read inside the
    history, so the two narrowing providers can always read their keys. *)
Theorem reachable_data_defined s :
  reachable s →
  is_Some (data s) ∧ is_Some (staticData (data s)) ∧ is_Some (scheduleData (data s)).
Proof.
  intros Hs.
  assert (is_Some (data s)) as [d Hd]; [|rewrite Hd; repeat split; by eexists].
  induction Hs as [|a s Hs IH]; [by eexists|].
  pose proof (reachable_historyOk INITIAL_DATA DEFAULT_BELLS s Hs) as (Hlen & Hp & Hm).
  destruct a as [env|loaded| |env reply newData a|env reply|env reply|env reply].
  - by apply dataEffect_data_defined.
  - by eexists.
  - by eexists.
  - simpl. rewrite saveData_data. by eexists.
  - simpl. rewrite undo_next.
    destruct (Z.ltb_spec 0 (historyPointer s)); [|done].
    apply index_is_Some. lia.
  - simpl. rewrite redo_next.
    destruct (Z.ltb_spec (historyPointer s) (len (history s) - 1)); [|done].
    apply index_is_Some. lia.
  - change (is_Some (data (next (saveData env reply s INITIAL_DATA None)))).
    rewrite saveData_data. by eexists.
Qed.

Lemma seeded_perform a s :
  historyOk s → history s ≠ [] → history (next (perform a s)) ≠ [].
Proof.
  intros (Hlen & Hp & Hm) Hne.
  assert (∀ env reply newData a,
            history (next (saveData env reply s newData a)) ≠ []) as Hsave.
  { intros env reply newData b. rewrite saveData_next. cbv zeta.
    destruct (default true b); [|done]. simpl.
    set (d := spreadData _ _). pose proof (len_appended s d Hp) as Happ.
    intros Hnil. apply len_nil_iff in Hnil.
    destruct (Z.ltb_spec 50 (len (appended s d))).
    - rewrite len_shift in Hnil; lia.
    - lia. }
  destruct a as [env|loaded| |env reply newData a|env reply|env reply|env reply].
  - unfold perform, dataEffect. destruct (initialData env); [done|].
    destruct (loading (auth env)); [done|]. by destruct (negb _).
  - simpl. by destruct (len (history s) =? 0).
  - done.
  - apply Hsave.
  - simpl. rewrite undo_next. by destruct (0 <? historyPointer s).
  - simpl. rewrite redo_next. by destruct (historyPointer s <? _).
  - apply Hsave.
Qed.

(** X2: once the history holds a snapshot it never becomes empty again, and
    from then on the pointer always designates a snapshot of the history,
    whatever handlers run. *)
Theorem seeded_history_stays_seeded acts s :
  reachable s →
  history s ≠ [] →
  history (runAll acts s) ≠ []
  ∧ 0 ≤ historyPointer (runAll acts s)
  ∧ is_Some (index (history (runAll acts s)) (historyPointer (runAll acts s))).
Proof.
  revert s. induction acts as [|a acts IH]; intros s Hs Hne.
  - simpl. pose proof (reachable_historyOk INITIAL_DATA DEFAULT_BELLS s Hs) as (Hlen & Hp & Hm).
    assert (0 ≤ historyPointer s).
    { destruct (Z.eq_dec (historyPointer s) (-1)) as [Hm1|]; [by apply Hm in Hm1 | lia]. }
    repeat split; [done..|]. apply index_is_Some. lia.
  - simpl. apply IH.
    + by constructor.
    + apply seeded_perform; [by apply (reachable_historyOk INITIAL_DATA DEFAULT_BELLS) | done].
Qed.







Lemma persistSnapshot_persisted env reply doc out res st :
  persistSnapshot env reply doc = (out, res) →
  persisted (mkRun st out res) =
    if negb (truthy (initialData env)) && truthy (user (auth env)) then [doc] else [].
Proof.
  unfold persistSnapshot.
  destruct (negb _ && _); intros [= <- <-]; reflexivity.
Qed.

Lemma saveData_persisted env reply s newData a :
  persisted (saveData env reply s newData a) =
    if negb (truthy (initialData env)) && truthy (user (auth env))
    then [data (next (saveData env reply s newData a))] else [].
Proof.
  rewrite saveData_data. unfold persisted. rewrite saveData_calls. cbv zeta.
  destruct (initialData env), (user (auth env)), (isGuestRole (role (auth env)));
    simpl; try done; by destruct reply.
Qed.

(** X7: [saveData], [resetData], [undo] and [redo] hand a document to
    [dbService.save] at most once, exactly when the provider has no
    [initialData], a user is signed in and (for [undo]/[redo]) the move is
    enabled; the role plays no part, and the document handed over is the one
    that becomes current data. *)
Theorem store_gets_the_current_data env reply s newData a :
  let gate := negb (truthy (initialData env)) && truthy (user (auth env)) in
  persisted (saveData env reply s newData a)
    = (if gate then [data (next (saveData env reply s newData a))] else [])
  ∧ persisted (resetData env reply s)
    = (if gate then [data (next (resetData env reply s))] else [])
  ∧ persisted (undo env reply s)
    = (if gate && canUndo s then [data (next (undo env reply s))] else [])
  ∧ persisted (redo env reply s)
    = (if gate && canRedo s then [data (next (redo env reply s))] else []).
Proof.
  cbv zeta. split; [apply saveData_persisted|]. split; [apply saveData_persisted|].
  unfold undo, redo, canUndo, canRedo. split.
  - destruct (0 <? historyPointer s); [|by rewrite andb_false_r].
    destruct (persistSnapshot _ _ _) as [out res] eqn:Hps.
    rewrite (persistSnapshot_persisted _ _ _ _ _ _ Hps). by rewrite andb_true_r.
  - destruct (historyPointer s <? len (history s) - 1); [|by rewrite andb_false_r].
    destruct (persistSnapshot _ _ _) as [out res] eqn:Hps.
    rewrite (persistSnapshot_persisted _ _ _ _ _ _ Hps). by rewrite andb_true_r.
Qed.

(** X8: a provider given [initialData] never contacts the store: its effect
    subscribes to nothing and seeds data and history with that snapshot
    alone, and no handler saves. *)
Theorem read_only_view_stays_local env reply s newData a d :
  initialData env = Some d →
  dataEffect env s = mkRun (mkState (Some d) false [d] 0) [] Fulfilled
  ∧ inSync (next (dataEffect env s))
  ∧ persisted (saveData env reply s newData a) = []
  ∧ persisted (resetData env reply s) = []
  ∧ persisted (undo env reply s) = []
  ∧ persisted (redo env reply s) = []
  ∧ subscribed env = false.
Proof.
  intros Hi.
  assert (persistSnapshot env reply = λ _, ([], Fulfilled)) as Hps.
  { unfold persistSnapshot. by rewrite Hi. }
  repeat split.
  - unfold dataEffect. by rewrite Hi.
  - unfold dataEffect. by rewrite Hi.
  - rewrite saveData_persisted. by rewrite Hi.
  - unfold resetData. rewrite saveData_persisted. by rewrite Hi.
  - unfold undo. rewrite Hps. by destruct (0 <? historyPointer s).
  - unfold redo. rewrite Hps. by destruct (historyPointer s <? _).
  - unfold subscribed. by rewrite Hi.
Qed.

(** *** Loading *)

Lemma spread_assoc {A} (a b c : prop A) : spread (spread a b) c = spread a (spread b c).
Proof. by destruct c. Qed.

Lemma spread_absorb {A} (a b : prop A) : spread a (spread a b) = spread a b.
Proof. by destruct b, a. Qed.

Lemma spreadData_assoc (a b c : AppData) :
  spreadData (spreadData a b) c = spreadData a (spreadData b c).
Proof. unfold spreadData; simpl. by rewrite !spread_assoc. Qed.

Lemma normalizeTeacher_idemp (t : Teacher) :
  normalizeTeacher (normalizeTeacher t) = normalizeTeacher t.
Proof. unfold normalizeTeacher; simpl. by destruct (shifts t), (telegramChatId t). Qed.

Lemma map_normalizeTeacher_idemp (l : list Teacher) :
  map normalizeTeacher (map normalizeTeacher l) = map normalizeTeacher l.
Proof.
  induction l as [|t l IH]; [done|]. simpl. by rewrite normalizeTeacher_idemp, IH.
Qed.

(** X9: the normalisation of the subscription listener is idempotent: a
    document that already went through it comes out of it unchanged. *)
Theorem fixData_idempotent loaded : fixData (fixData loaded) = fixData loaded.
Proof.
  unfold fixData; simpl. f_equal.
  - apply spread_absorb.
  - by rewrite map_normalizeTeacher_idemp.
  - apply spread_absorb.
  - apply spread_absorb.
  - destruct (settings loaded) as [| |m]; destruct (settings INITIAL_DATA) as [| |m0];
      simpl; try done; f_equal;
      rewrite <- ?(assoc_L (∪)), ?(idemp_L (∪)), ?(right_id_L ∅ (∪)); done.
Qed.

(** X10: delivering the same document twice in a row leaves the provider in
    the state the first delivery produced, from any state. *)
Theorem repeated_delivery_changes_nothing loaded s :
  next (onData loaded (next (onData loaded s))) = next (onData loaded s).
Proof.
  simpl. f_equal.
  - destruct (Z.eqb_spec (len (history s)) 0) as [H0|Hne]; [done|].
    by destruct (Z.eqb_spec (len (history s)) 0).
  - destruct (Z.eqb_spec (historyPointer s) (-1)) as [H1|Hne]; [done|].
    by destruct (Z.eqb_spec (historyPointer s) (-1)).
Qed.

(** X11: the listener repairs four keys only: a null under [subjects],
    [classes] or [rooms] of the delivered document, or under the [shifts] or
    [telegramChatId] of one of its teachers, is still a null in the current
    data, whatever INITIAL_DATA holds. *)
Theorem load_keeps_nulls_outside_the_repaired_keys loaded :
  (subjects loaded = Nullish → subjects (fixData loaded) = Nullish)
  ∧ (classes loaded = Nullish → classes (fixData loaded) = Nullish)
  ∧ (rooms loaded = Nullish → rooms (fixData loaded) = Nullish)
  ∧ (∀ ts, teachers loaded = Present ts →
       teachers (fixData loaded) = Present (map normalizeTeacher ts)
       ∧ ∀ t, t ∈ ts →
           (shifts t = Nullish → shifts (normalizeTeacher t) = Nullish)
           ∧ (telegramChatId t = Nullish → telegramChatId (normalizeTeacher t) = Nullish)).
Proof.
  unfold fixData; simpl.
  split; [by intros ->|]. split; [by intros ->|]. split; [by intros ->|].
  intros ts Hts. rewrite Hts. split; [done|].
  intros t _. unfold normalizeTeacher; simpl. split; by intros ->.
Qed.

(** *** Saving *)

(** X12: a [saveData] call, and then a second one made through the
    [saveData] of the render that follows the first (the one that closes
    over the data the first call set), leave the current data that one call
    with the two updates spread together leaves; when neither records
    history the whole state is the same.  (Two calls through one and the
    same function object both read the data of its render; that is not what
    is stated here.) *)
Theorem successive_saves_merge env1 reply1 env2 reply2 env reply s n1 n2 a1 a2 a :
  data (next (saveData env2 reply2 (next (saveData env1 reply1 s n1 a1)) n2 a2))
  = data (next (saveData env reply s (spreadData n1 n2) a))
  ∧ next (saveData env2 reply2 (next (saveData env1 reply1 s n1 (Some false))) n2 (Some false))
    = next (saveData env reply s (spreadData n1 n2) (Some false)).
Proof.
  split.
  - rewrite !saveData_data. simpl. by rewrite spreadData_assoc.
  - rewrite !saveData_next. simpl. by rewrite spreadData_assoc.
Qed.

Lemma spread_present_key {A} (a b : prop A) : b ≠ Missing → spread a b = b.
Proof. by destruct b. Qed.

Lemma spreadData_complete (a b : AppData) : complete b → spreadData a b = b.
Proof.
  intros (H1 & H2 & H3 & H4 & H5 & H6 & H7 & H8). destruct b. simpl in *.
  unfold spreadData; simpl. by rewrite !spread_present_key.
Qed.

Lemma recorded_save_last env reply s newData a :
  default true a = true →
  last (history (next (saveData env reply s newData a)))
  = Some (spreadData (spreadable (data s)) newData).
Proof.
  intros Ha. rewrite saveData_next. cbv zeta. rewrite Ha. simpl.
  unfold appended, push, shift.
  destruct (slice0 (history s) (historyPointer s + 1)) as [|x l]; [done|].
  destruct (50 <? len ((x :: l) ++ [_])); [simpl|]; apply last_snoc.
Qed.

(** X13: when INITIAL_DATA has all eight keys, [resetData] makes it the
    current data and records it as the last snapshot; a key INITIAL_DATA
    does not have keeps the value it had before the reset. *)
Theorem reset_restores_defaults env reply s :
  (complete INITIAL_DATA →
   data (next (resetData env reply s)) = Some INITIAL_DATA
   ∧ last (history (next (resetData env reply s))) = Some INITIAL_DATA)
  ∧ (subjects INITIAL_DATA = Missing →
     subjects <$> data (next (resetData env reply s))
     = Some (subjects (spreadable (data s)))).
Proof.
  unfold resetData. split.
  - intros Hc. rewrite saveData_data, recorded_save_last by done.
    by rewrite (spreadData_complete _ _ Hc).
  - intros Hm. rewrite saveData_data. simpl. by rewrite Hm.
Qed.

(** *** The narrowing providers *)

Lemma read_idemp {A} (p : prop A) : read (read p) = read p.
Proof. by destruct p. Qed.

Lemma read_spread_read {A} (p : prop A) : read (spread p (read p)) = read p.
Proof. by destruct p. Qed.

(** X14: the two narrowing providers do not disturb each other: a save
    through [saveStaticData] leaves what [ScheduleDataProvider] shows as it
    was, and a save through [saveScheduleData] leaves what
    [StaticDataProvider] shows as it was. *)
Theorem narrowed_saves_keep_the_other_view env reply s u v a :
  is_Some (data s) →
  scheduleData (data (next (saveStaticData env reply s u a))) = scheduleData (data s)
  ∧ staticData (data (next (saveScheduleData env reply s v a))) = staticData (data s).
Proof.
  intros [d Hd]. unfold saveStaticData, saveScheduleData.
  rewrite !saveData_data, Hd. by split.
Qed.

(** X15: saving back what a narrowing provider shows changes neither view,
    and a schedule update that carries both keys is what
    [ScheduleDataProvider] shows afterwards. *)
Theorem narrowed_saves_read_back env reply s u v w a :
  staticData (data s) = Some u →
  scheduleData (data s) = Some v →
  viewSchedule w ≠ Missing →
  viewSubstitutions w ≠ Missing →
  staticData (data (next (saveStaticData env reply s u a))) = Some u
  ∧ scheduleData (data (next (saveStaticData env reply s u a))) = Some v
  ∧ scheduleData (data (next (saveScheduleData env reply s v a))) = Some v
  ∧ staticData (data (next (saveScheduleData env reply s v a))) = Some u
  ∧ scheduleData (data (next (saveScheduleData env reply s w a))) = Some w.
Proof.
  intros Hu Hv Hw1 Hw2. unfold saveStaticData, saveScheduleData.
  rewrite !saveData_data.
  destruct (data s) as [d|]; [|done].
  injection Hu as <-. injection Hv as <-.
  unfold staticData, scheduleData; simpl.
  rewrite !read_spread_read.
  repeat split. destruct w as [w1 w2]. simpl in *.
  by destruct w1, w2.
Qed.

End HistoryProperties.

(** ** Properties of AuthProvider and of the firebase module *)

Section AuthProperties.
Context `{Σ : Schema}.

Lemma emailIs_true u c : emailIs u c = true ↔ email u = Some c.
Proof.
  unfold emailIs. destruct (email u) as [e|]; [|done].
  destruct (String.eqb_spec e c) as [->|Hne]; split; try done.
  intros [= ->]. by destruct Hne.
Qed.

Lemma authListener_role client cu s :
  role (authListener client cu s).1 =
    match cu with
    | Some u =>
        if emailIs u ADMIN_EMAIL then Some admin
        else if emailIs u TEACHER_EMAIL then Some teacher else None
    | None => None
    end.
Proof.
  unfold authListener. destruct cu as [u|]; [|done].
  by destruct (emailIs u ADMIN_EMAIL), (emailIs u TEACHER_EMAIL).
Qed.

Lemma authListener_user client cu s :
  user (authListener client cu s).1 = cu ∧ loading (authListener client cu s).1 = false.
Proof.
  unfold authListener. destruct cu as [u|]; [|done].
  by destruct (emailIs u ADMIN_EMAIL), (emailIs u TEACHER_EMAIL).
Qed.

(** X16: after a notification the role is a function of the delivered
    identity alone: admin exactly for the admin address, teacher exactly for
    the teacher address, never guest; the user cell holds the delivered
    identity and loading is over.  A guest role set before is overwritten. *)
Theorem listener_derives_role_from_email client cu s :
  let s' := (authListener client cu s).1 in
  user s' = cu
  ∧ loading s' = false
  ∧ role s' ≠ Some guest
  ∧ (role s' = Some admin ↔ ∃ u, cu = Some u ∧ email u = Some ADMIN_EMAIL)
  ∧ (role s' = Some teacher ↔ ∃ u, cu = Some u ∧ email u = Some TEACHER_EMAIL).
Proof.
  cbv zeta. destruct (authListener_user client cu s) as [Hu Hl].
  rewrite authListener_role. split; [done|]. split; [done|].
  destruct cu as [u|].
  - destruct (emailIs u ADMIN_EMAIL) eqn:Ha.
    { apply emailIs_true in Ha. repeat split; try done.
      - by exists u.
      - intros (u' & [= <-] & He). rewrite Ha in He. discriminate. }
    destruct (emailIs u TEACHER_EMAIL) eqn:Ht.
    { apply emailIs_true in Ht. repeat split; try done.
      - intros (u' & [= <-] & He). apply emailIs_true in He. congruence.
      - by exists u. }
    repeat split; try done.
    + intros (u' & [= <-] & He). apply emailIs_true in He. congruence.
    + intros (u' & [= <-] & He). apply emailIs_true in He. congruence.
  - repeat split; try done; by intros (u' & ? & _).
Qed.

(** X17: the listener calls [signOut] at most once, and only for a signed-in
    identity that is neither the admin nor the teacher; the notification of
    a sign-out (no identity) makes no call, so rejecting an identity does not
    loop. *)
Theorem listener_signs_out_only_strangers client cu s :
  (authListener client cu s).2 = []
  ∨ ((authListener client cu s).2 = [SignOut]
     ∧ client = true
     ∧ role (authListener client cu s).1 = None
     ∧ ∃ u, cu = Some u ∧ email u ≠ Some ADMIN_EMAIL ∧ email u ≠ Some TEACHER_EMAIL).
Proof.
  unfold authListener. destruct cu as [u|]; [|by left].
  destruct (emailIs u ADMIN_EMAIL) eqn:Ha; [by left|].
  destruct (emailIs u TEACHER_EMAIL) eqn:Ht; [by left|].
  destruct client; [right|by left].
  repeat split. exists u. repeat split.
  - intros He. apply emailIs_true in He. congruence.
  - intros He. apply emailIs_true in He. congruence.
Qed.

Lemma authStep_notify client cu s :
  authStep client (Notify cu) s = if client then authListener client cu s else (s, []).
Proof. unfold authStep, authEffect. by destruct client. Qed.

Lemma roleBacked_step client a s : roleBacked s → roleBacked (authStep client a s).1.
Proof.
  intros Hs. destruct a as [cu|rejects|].
  - rewrite authStep_notify. destruct client; [|done].
    unfold roleBacked. destruct (authListener_user true cu s) as [Hu _].
    rewrite authListener_role, Hu. destruct cu as [u|]; [|done].
    destruct (emailIs u ADMIN_EMAIL) eqn:Ha.
    { exists u. by apply emailIs_true in Ha. }
    destruct (emailIs u TEACHER_EMAIL) eqn:Ht; [|done].
    exists u. by apply emailIs_true in Ht.
  - simpl. unfold logout. by destruct client, rejects.
  - done.
Qed.

(** X18: in every state AuthProvider can reach, the admin role is held only
    while the user cell holds an identity with the admin address, and the
    teacher role only with the teacher address. *)
Theorem privileged_role_is_backed client s :
  authReachable client s →
  (role s = Some admin → ∃ u, user s = Some u ∧ email u = Some ADMIN_EMAIL)
  ∧ (role s = Some teacher → ∃ u, user s = Some u ∧ email u = Some TEACHER_EMAIL).
Proof.
  intros Hs. assert (roleBacked s) as Hb.
  { induction Hs as [|a s _ IH]; [by destruct client | by apply roleBacked_step]. }
  unfold roleBacked in Hb. split; intros Hr; by rewrite Hr in Hb.
Qed.

(** X19: when the firebase module exported no auth client, AuthProvider
    never has a user, never a role other than guest, is not loading, and
    never calls [signOut]. *)
Theorem without_client_only_guests s a :
  authReachable false s →
  user s = None
  ∧ (role s = None ∨ role s = Some guest)
  ∧ loading s = false
  ∧ (authStep false a s).2 = [].
Proof.
  intros Hs. assert (user s = None ∧ (role s = None ∨ role s = Some guest)
                     ∧ loading s = false) as (Hu & Hr & Hl).
  { induction Hs as [|b s _ (Hu & Hr & Hl)]; [by repeat split; try left|].
    destruct b as [cu|rejects|]; simpl; [done| |by repeat split; try right].
    repeat split; [done | by left | done]. }
  repeat split; try done. by destruct a.
Qed.

End AuthProperties.

Section FirebaseProperties.
Variables (App Firestore Auth InitError : Type).

Local Abbreviation init := (Firebase.init App Firestore Auth InitError).

(** X20: the module assigns its bindings in order and stops at the first
    throw: [auth] is set only if [firestoreDB] is, and that only if [app] is;
    [auth] is set exactly when the success line is the last thing logged, and
    otherwise exactly one error is logged. *)
Theorem bindings_are_set_in_order cfg sdk :
  let b := (init cfg sdk).1 in
  let log := (init cfg sdk).2 in
  (is_Some (Firebase.auth _ _ _ b) → is_Some (Firebase.firestoreDB _ _ _ b))
  ∧ (is_Some (Firebase.firestoreDB _ _ _ b) → is_Some (Firebase.app _ _ _ b))
  ∧ (is_Some (Firebase.auth _ _ _ b) ↔ last log = Some (Firebase.LogInitialized _))
  ∧ match Firebase.auth _ _ _ b with
    | Some _ => filter (λ e, Firebase.isError _ e = true) log = []
    | None => length (filter (λ e, Firebase.isError _ e = true) log) = 1%nat
    end.
Proof.
  cbv zeta. unfold Firebase.init.
  destruct (Firebase.falsyString _).
  { simpl. repeat split; try done; intros [? ?]; done. }
  destruct (Nat.eqb _ 0);
    [destruct (Firebase.initializeApp _ _ _ _ sdk cfg) as [e|a]
    |destruct (Firebase.existingApp _ _ _ _ sdk) as [e|a]];
    try (simpl; repeat split; try done; intros [? ?]; done);
    (destruct (Firebase.firestore _ _ _ _ sdk) as [e|db];
     [simpl; repeat split; try done; intros [? ?]; done|]);
    (destruct (Firebase.authClient _ _ _ _ sdk) as [e|au];
     [simpl; repeat split; try done; intros [? ?]; done|]);
    simpl; repeat split; try done; by eexists.
Qed.

(** X21: without an API key (unset or empty) the module calls nothing of the
    SDK; with one, its first SDK call is [initializeApp] when no app exists
    and [app()] otherwise, and it never makes both calls. *)
Theorem app_is_created_at_most_once cfg sdk :
  let log := (init cfg sdk).2 in
  (Firebase.falsyString (Firebase.apiKey cfg) = true →
   filter (λ e, Firebase.isSdkCall _ e = true) log = [])
  ∧ (Firebase.falsyString (Firebase.apiKey cfg) = false →
     head log = Some (if Nat.eqb (Firebase.appsLength _ _ _ _ sdk) 0
                      then Firebase.CallInitializeApp _ cfg else Firebase.CallApp _))
  ∧ (Firebase.CallApp _ ∈ log → ∀ c, Firebase.CallInitializeApp _ c ∉ log).
Proof.
  cbv zeta. unfold Firebase.init.
  destruct (Firebase.falsyString _).
  { simpl. repeat split; try done. intros H. by apply list_elem_of_singleton in H. }
  destruct (Nat.eqb _ 0);
    [destruct (Firebase.initializeApp _ _ _ _ sdk cfg) as [e|a]
    |destruct (Firebase.existingApp _ _ _ _ sdk) as [e|a]];
    try destruct (Firebase.firestore _ _ _ _ sdk) as [e'|db];
    try destruct (Firebase.authClient _ _ _ _ sdk) as [e''|au];
    simpl; (split; [done|]); (split; [done|]);
    intros Hin c Hc;
    repeat (apply elem_of_cons in Hin as [Hin|Hin]; [try discriminate|]);
    try (by apply elem_of_nil in Hin);
    repeat (apply elem_of_cons in Hc as [Hc|Hc]; [try discriminate|]);
    by apply elem_of_nil in Hc.
Qed.

End FirebaseProperties.

(** ** The providers together *)

Section Composition.
Context `{Σ : Schema}.
Variable INITIAL_DATA : AppData.
Variables (App Firestore Auth InitError : Type).

Local Abbreviation dataEffect := (dataEffect INITIAL_DATA).
Local Abbreviation resetData := (resetData INITIAL_DATA).
Local Abbreviation init := (Firebase.init App Firestore Auth InitError).

Lemma no_user_persists_nothing env reply s newData a :
  user (auth env) = None →
  persisted (saveData env reply s newData a) = []
  ∧ persisted (resetData env reply s) = []
  ∧ persisted (undo env reply s) = []
  ∧ persisted (redo env reply s) = [].
Proof.
  intros Hu.
  assert (persistSnapshot env reply = λ _, ([], Fulfilled)) as Hps.
  { unfold persistSnapshot. rewrite Hu. simpl. by rewrite andb_false_r. }
  assert (∀ d b, persisted (saveData env reply s d b) = []) as Hsave.
  { intros d b. unfold persisted. rewrite saveData_calls, Hu. simpl.
    rewrite andb_false_r. by destruct (isGuestRole _). }
  repeat split; try apply Hsave.
  - unfold undo. rewrite Hps. by destruct (0 <? historyPointer s).
  - unfold redo. rewrite Hps. by destruct (historyPointer s <? _).
Qed.

(** X22: a visitor without a session who chose the guest role gets a
    subscription to the store from the effect of DataProvider (the data and
    the history stay as they are while it loads), and none of [saveData],
    [resetData], [undo], [redo] writes to the store. *)
Theorem guest_reads_but_never_writes a st reply newData flag :
  user a = None →
  let env := mkEnv None (setGuestRole a) in
  dataEffect env st
  = mkRun (mkState (data st) true (history st) (historyPointer st)) [DbSubscribe] Fulfilled
  ∧ subscribed env = true
  ∧ persisted (saveData env reply st newData flag) = []
  ∧ persisted (resetData env reply st) = []
  ∧ persisted (undo env reply st) = []
  ∧ persisted (redo env reply st) = [].
Proof.
  intros Hu. cbv zeta.
  split; [unfold dataEffect; simpl; by rewrite Hu|].
  split; [unfold subscribed; simpl; by rewrite orb_true_r|].
  by apply no_user_persists_nothing.
Qed.


(** X24: after a [logout] whose sign-out resolved and the notification that
    follows it, nobody is signed in and the effect of DataProvider puts
    INITIAL_DATA in place without subscribing, but the history and the
    pointer of the session stay: an [undo] then brings a snapshot of the
    former session back as current data, without writing to the store. *)
Theorem logout_keeps_the_history a st reply :
  let a' := (authListener true None (logout true false a).1).1 in
  let st' := next (dataEffect (mkEnv None a') st) in
  a' = mkAuth None None false
  ∧ dataEffect (mkEnv None a') st
    = mkRun (mkState (Some INITIAL_DATA) false (history st) (historyPointer st)) [] Fulfilled
  ∧ (0 < historyPointer st →
     data (next (undo (mkEnv None a') reply st'))
     = index (history st) (historyPointer st - 1)
     ∧ persisted (undo (mkEnv None a') reply st') = []).
Proof.
  cbv zeta. split; [done|]. split; [done|].
  intros Hpos. unfold undo. simpl.
  destruct (Z.ltb_spec 0 (historyPointer st)); [|lia]. done.
Qed.

End Composition.

(** ** Further scenarios on the concrete instance *)

Section MoreScenarios.
Local Existing Instance plainSchema.

Local Abbreviation reachable := (reachable demoDefaults demoBells).
Local Abbreviation adminEnv := (mkEnv None adminAuth).


Lemma reachable_data_defined_witness :
  reachable undoneState ∧ is_Some (data undoneState).
Proof.
  split; [apply undoneState_reachable|].
  apply (reachable_data_defined demoDefaults demoBells undoneState undoneState_reachable).
Defined.

Lemma seeded_history_stays_seeded_witness :
  reachable seededState
  ∧ history seededState ≠ []
  ∧ history (runAll demoDefaults demoBells
               [Undo adminEnv None; SubscriptionError; Redo adminEnv None] seededState) ≠ [].
Proof.
  assert (history seededState ≠ []) as Hne by discriminate.
  split; [apply seededState_reachable|]. split; [exact Hne|].
  apply (seeded_history_stays_seeded demoDefaults demoBells
           [Undo adminEnv None; SubscriptionError; Redo adminEnv None]
           seededState seededState_reachable Hne).
Defined.





Lemma read_only_view_stays_local_witness :
  initialData (mkEnv (Some bareDefaults) adminAuth) = Some bareDefaults
  ∧ persisted (saveData (mkEnv (Some bareDefaults) adminAuth) None twoSavesState
                 (onlySubjects ["Biology"%string]) None) = []
  ∧ persisted (undo (mkEnv (Some bareDefaults) adminAuth) None twoSavesState) = [].
Proof.
  destruct (read_only_view_stays_local demoDefaults (mkEnv (Some bareDefaults) adminAuth)
              None twoSavesState (onlySubjects ["Biology"%string]) None bareDefaults eq_refl)
    as (_ & _ & Hs & _ & Hu & _).
  exact (conj eq_refl (conj Hs Hu)).
Defined.

(** A delivered document with nulls where the listener does not repair. *)
Example nulls_survive_a_delivery :
  let doc := mkAppData Nullish (Present [mkTeacher Nullish Missing "Petrov"%string])
               Missing Nullish Nullish Missing Missing Nullish in
  subjects (fixData demoDefaults demoBells doc) = Nullish
  ∧ rooms (fixData demoDefaults demoBells doc) = Nullish
  ∧ teachers (fixData demoDefaults demoBells doc)
    = Present [mkTeacher Nullish (Present ""%string) "Petrov"%string]
  ∧ schedule (fixData demoDefaults demoBells doc) = Present [].
Proof. repeat split. Qed.

Lemma reset_restores_defaults_witness :
  complete bareDefaults
  ∧ data (next (resetData bareDefaults adminEnv None twoSavesState)) = Some bareDefaults
  ∧ subjects partialDefaults = Missing
  ∧ subjects <$> data (next (resetData partialDefaults adminEnv None twoSavesState))
    = Some (Present ["Chemistry"%string]).
Proof.
  assert (complete bareDefaults) as Hc by (repeat split; discriminate).
  destruct (reset_restores_defaults bareDefaults adminEnv None twoSavesState) as (Hfull & _).
  destruct (reset_restores_defaults partialDefaults adminEnv None twoSavesState)
    as (_ & Hpart).
  destruct (Hfull Hc) as (Hd & _).
  exact (conj Hc (conj Hd (conj eq_refl (Hpart eq_refl)))).
Defined.

Lemma narrowed_saves_keep_the_other_view_witness :
  is_Some (data twoSavesState)
  ∧ scheduleData (data (next (saveStaticData adminEnv None twoSavesState
                                (mkStatic (Present ["Biology"%string]) Missing Missing Missing
                                   Missing Missing) None)))
    = scheduleData (data twoSavesState).
Proof.
  assert (is_Some (data twoSavesState)) as Hd by (eexists; reflexivity).
  destruct (narrowed_saves_keep_the_other_view adminEnv None twoSavesState
              (mkStatic (Σ := plainSchema) (Present ["Biology"%string])
                 Missing Missing Missing Missing Missing)
              (mkSchedule Missing Missing) None Hd) as (Hs & _).
  exact (conj Hd Hs).
Defined.

Lemma narrowed_saves_read_back_witness :
  viewSchedule (mkSchedule (Present ["Mon 1 Algebra"%string]) (Present [])) ≠ Missing
  ∧ viewSubstitutions (mkSchedule (Present ["Mon 1 Algebra"%string]) (Present [])) ≠ Missing
  ∧ scheduleData (data (next (saveScheduleData adminEnv None twoSavesState
                                (mkSchedule (Present ["Mon 1 Algebra"%string]) (Present []))
                                None)))
    = Some (mkSchedule (Present ["Mon 1 Algebra"%string]) (Present [])).
Proof.
  assert (viewSchedule (mkSchedule (Σ := plainSchema) (Present ["Mon 1 Algebra"%string])
                          (Present [])) ≠ Missing) as H1 by discriminate.
  assert (viewSubstitutions (mkSchedule (Σ := plainSchema) (Present ["Mon 1 Algebra"%string])
                               (Present [])) ≠ Missing) as H2 by discriminate.
  destruct (staticData (data twoSavesState)) as [u|] eqn:Hu; [|discriminate].
  destruct (scheduleData (data twoSavesState)) as [v|] eqn:Hv; [|discriminate].
  destruct (narrowed_saves_read_back adminEnv None twoSavesState u v
              (mkSchedule (Σ := plainSchema) (Present ["Mon 1 Algebra"%string]) (Present []))
              None Hu Hv H1 H2) as (_ & _ & _ & _ & Hw).
  exact (conj H1 (conj H2 Hw)).
Defined.

Lemma privileged_role_is_backed_witness :
  authReachable true adminAuth
  ∧ role adminAuth = Some admin
  ∧ ∃ u, user adminAuth = Some u ∧ email u = Some ADMIN_EMAIL.
Proof.
  assert (authReachable true adminAuth) as Hr.
  { change adminAuth with
      (authStep true (Notify (Some adminUser)) (authEffect true authInitial).1.1).1.
    constructor. constructor. }
  destruct (privileged_role_is_backed true adminAuth Hr) as (Hadmin & _).
  exact (conj Hr (conj eq_refl (Hadmin eq_refl))).
Defined.

Lemma without_client_only_guests_witness :
  authReachable false guestAuth
  ∧ user guestAuth = None
  ∧ (authStep false (Notify (Some adminUser)) guestAuth).2 = [].
Proof.
  assert (authReachable false guestAuth) as Hr.
  { change guestAuth with
      (authStep false SetGuestRole (authStep false SetGuestRole
                                      (authEffect false authInitial).1.1).1).1.
    do 2 constructor. constructor. }
  destruct (without_client_only_guests guestAuth (Notify (Some adminUser)) Hr)
    as (Hu & _ & _ & Hc).
  exact (conj Hr (conj Hu Hc)).
Defined.

(** [auth()] throws: the app and the database are bound, the client is not. *)
Example init_stops_at_the_first_throw :
  Firebase.init unit unit unit string demoConfig brokenAuthSdk
  = (Firebase.mkBindings unit unit unit (Some tt) (Some tt) None,
     [Firebase.CallInitializeApp _ demoConfig; Firebase.CallFirestore _; Firebase.CallAuth _;
      Firebase.ErrorInitFailed _ "auth unavailable"%string])
  ∧ (Firebase.init unit unit unit string demoConfig healthySdk).2
    = [Firebase.CallApp _; Firebase.CallFirestore _; Firebase.CallAuth _;
       Firebase.LogInitialized _].
Proof. split; reflexivity. Qed.

Lemma guest_reads_but_never_writes_witness :
  user nobodyAuth = None
  ∧ calls (dataEffect demoDefaults (mkEnv None (setGuestRole nobodyAuth)) seededState)
    = [DbSubscribe]
  ∧ persisted (saveData (mkEnv None (setGuestRole nobodyAuth)) None seededState
                 (onlySubjects ["Biology"%string]) None) = [].
Proof.
  destruct (guest_reads_but_never_writes demoDefaults nobodyAuth seededState None
              (onlySubjects ["Biology"%string]) None eq_refl) as (He & _ & Hs & _).
  split; [reflexivity|]. split; [by rewrite He | exact Hs].
Defined.


Lemma logout_keeps_the_history_witness :
  0 < historyPointer twoSavesState
  ∧ subjects <$> data (next (undo (mkEnv None (mkAuth None None false)) None
                               (next (dataEffect demoDefaults
                                        (mkEnv None (mkAuth None None false)) twoSavesState))))
    = Some (Present ["Physics"%string]).
Proof.
  assert (0 < historyPointer twoSavesState) as Hpos by (vm_compute; reflexivity).
  destruct (logout_keeps_the_history demoDefaults adminAuth twoSavesState None)
    as (_ & _ & Hundo).
  destruct (Hundo Hpos) as (Hd & _).
  split; [exact Hpos|].
  exact (eq_trans (f_equal (fmap subjects) Hd) eq_refl).
Defined.

End MoreScenarios.
